(** * astroquery.mast.utils: a shallow embedding

    The Python module [astroquery/mast/utils.py] has three functions:
    [_parse_type] (a static dictionary lookup), [_simple_request] (one HTTP
    GET through the [requests] library) and [resolve_object] (name lookup
    against the MAST service).  Each is transcribed below, followed by the
    properties established about it.

    Conventions of the embedding.
    - A Python [str] is a [string]; the character with byte value [n] stands
      for the code point U+00nn, so the model covers the strings over
      U+0000..U+00FF.
    - A Python [dict] used as a lookup table is a [gmap].
    - Code that can raise runs in a state-and-error monad: the state is the
      log of HTTP requests issued so far, the error is the exception. *)

From Stdlib Require Import Ascii String ZArith QArith.
From stdpp Require Import base option list strings gmap.

Open Scope string_scope.

(** ** Python strings *)

Module PyStr.

Definition code (c : ascii) : N := N_of_ascii c.

(** [str.lower()] on one code point of U+0000..U+00FF: A-Z and the Latin-1
    capitals U+00C0..U+00DE (U+00D7, the multiplication sign, excepted)
    move up by 32; every other code point is its own lower case. *)
Definition lower_char (c : ascii) : ascii :=
  let n := code c in
  if ((65 <=? n) && (n <=? 90)
      || (192 <=? n) && (n <=? 222) && negb (n =? 215))%N
  then ascii_of_N (n + 32) else c.

(** [str.upper()] on one code point.  It is exact below U+0080; in the
    Latin-1 block it is exact except at U+00B5, U+00DF and U+00FF, whose
    upper case lies outside U+0000..U+00FF and which are left as they
    are here. *)
Definition upper_char (c : ascii) : ascii :=
  let n := code c in
  if ((97 <=? n) && (n <=? 122)
      || (224 <=? n) && (n <=? 254) && negb (n =? 247))%N
  then ascii_of_N (n - 32) else c.

Fixpoint lower (s : string) : string :=
  match s with
  | EmptyString => EmptyString
  | String c s' => String (lower_char c) (lower s')
  end.

Fixpoint upper (s : string) : string :=
  match s with
  | EmptyString => EmptyString
  | String c s' => String (upper_char c) (upper s')
  end.

(** [s] has only ASCII code points (below U+0080). *)
Fixpoint is_ascii (s : string) : bool :=
  match s with
  | EmptyString => true
  | String c s' => (code c <? 128)%N && is_ascii s'
  end.

End PyStr.

(** ** [_parse_type] *)

(** The Python objects that occur in the triplets of [_parse_type]: string
    literals, the type objects [str], [np.float64], [np.int64], [bool],
    [np.ubyte], [np.nan], integer literals and [None]. *)
Inductive pytype : Type :=
| py_str
| np_float64
| np_int64
| py_bool
| np_ubyte.

Inductive pyobj : Type :=
| PyString (s : string)
| PyType (t : pytype)
| PyNan
| PyInt (z : Z)
| PyNone.

(** A 3-tuple of Python objects. *)
Definition triplet : Type := pyobj * pyobj * pyobj.

(** The dictionary literal of [_parse_type], item by item in source order. *)
Definition type_items : list (string * triplet) :=
  [ ("char",         (PyString "string",  PyType py_str,     PyString ""));
    ("string",       (PyString "string",  PyType py_str,     PyString ""));
    ("datetime",     (PyString "string",  PyType py_str,     PyString ""));
    ("date",         (PyString "string",  PyType py_str,     PyString ""));

    ("double",       (PyString "float",   PyType np_float64, PyNan));
    ("float",        (PyString "float",   PyType np_float64, PyNan));
    ("decimal",      (PyString "float",   PyType np_float64, PyNan));

    ("int",          (PyString "integer", PyType np_int64,   PyInt (-999)));
    ("short",        (PyString "integer", PyType np_int64,   PyInt (-999)));
    ("long",         (PyString "integer", PyType np_int64,   PyInt (-999)));
    ("number",       (PyString "integer", PyType np_int64,   PyInt (-999)));

    ("boolean",      (PyString "boolean", PyType py_bool,    PyNone));
    ("binary",       (PyString "boolean", PyType py_bool,    PyNone));

    ("unsignedbyte", (PyString "byte",    PyType np_ubyte,   PyInt (-999))) ].

Definition type_table : gmap string triplet := list_to_map type_items.

(** [dict.get(key, fallback)]. *)
Definition dict_get {V} (d : gmap string V) (key : string) (fallback : V) : V :=
  default fallback (d !! key).

Definition _parse_type (dbtype : string) : triplet :=
  let dbtype := PyStr.lower dbtype in
  dict_get type_table dbtype (PyString dbtype, PyString dbtype, PyString dbtype).

(** The keys of the dictionary literal. *)
Definition recognized_tokens : list string := type_items.*1.

(** The table of section 4.1 of the specification, row by row: the tokens of
    a row, then its display kind, value kind and default. *)
Definition spec_rows : list (list string * triplet) :=
  [ (["char"; "string"],                (PyString "string",  PyType py_str,     PyString ""));
    (["datetime"; "date"],              (PyString "string",  PyType py_str,     PyString ""));
    (["double"; "float"; "decimal"],    (PyString "float",   PyType np_float64, PyNan));
    (["int"; "short"; "long"; "number"], (PyString "integer", PyType np_int64,   PyInt (-999)));
    (["boolean"; "binary"],             (PyString "boolean", PyType py_bool,    PyNone));
    (["unsignedbyte"],                  (PyString "byte",    PyType np_ubyte,   PyInt (-999))) ].

(** [spec_entry token t]: some row of the table lists [token] and gives [t]. *)
Definition spec_table : list (string * triplet) :=
  flat_map (λ row, map (λ token, (token, row.2)) row.1) spec_rows.

Definition spec_entry (token : string) (t : triplet) : Prop :=
  (token, t) ∈ spec_table.

(** ** Exceptions, JSON values and the effect monad *)

Set Warnings "-register-all".

(** Values produced by [response.json()].  A JSON object is parsed to a
    Python [dict], hence a [gmap]; numbers are kept as rationals. *)
Inductive json : Type :=
| JNull
| JBool (b : bool)
| JNum (q : Q)
| JStr (s : string)
| JArr (items : list json)
| JObj (members : gmap string json).

(** An HTTP response as far as this module looks at it: the status code
    and the outcome of [response.json()] ([None] when the body is not a
    JSON document). *)
Record Response : Type := mkResponse {
  status_code : Z;
  body_json : option json
}.

(** The exceptions that can leave the module. *)
Inductive exn : Type :=
| TypeError (msg : string)
| KeyError (key : string)
| IndexError (msg : string)
| JSONDecodeError
| RequestException (msg : string)   (* raised by [requests.get] itself *)
| HTTPError (response : Response)   (* raised by [raise_for_status] *)
| ResolverError (msg : string)
| AstropyError (msg : string).      (* raised by the [SkyCoord] constructor *)

(** One call of [requests.get(url, params=..., headers=...)]. *)
Record Request : Type := mkRequest {
  req_url : string;
  req_params : string;
  req_headers : list (string * string)
}.

(** Computations that may raise and that issue HTTP requests: the state is
    the log of the requests issued so far, oldest first. *)
Definition M (A : Type) : Type := list Request → (exn + A) * list Request.

Definition raise {A} (e : exn) : M A := λ log, (inl e, log).

#[export] Instance M_ret : MRet M := λ A (a : A) log, (inr a, log).

#[export] Instance M_bind : MBind M := λ A B (f : A → M B) (m : M A) log,
  match m log with
  | (inr a, log') => f a log'
  | (inl e, log') => (inl e, log')
  end.

(** Run a computation from the empty log. *)
Definition run {A} (m : M A) : (exn + A) * list Request := m [].
Definition outcome {A} (m : M A) : exn + A := (run m).1.
Definition requests_sent {A} (m : M A) : list Request := (run m).2.

(** *** Python's subscription and [len] on parsed JSON *)

(** [v[key]] for a string [key]: only a dict can be subscripted by a
    string. *)
Definition getitem_str (v : json) (key : string) : M json :=
  match v with
  | JObj d =>
      match d !! key with
      | Some x => mret x
      | None => raise (KeyError key)
      end
  | JArr _ => raise (TypeError "list indices must be integers or slices, not str")
  | JStr _ => raise (TypeError "string indices must be integers")
  | JNull | JBool _ | JNum _ => raise (TypeError "object is not subscriptable")
  end.

(** [len(v)]. *)
Definition py_len (v : json) : M nat :=
  match v with
  | JArr items => mret (length items)
  | JObj d => mret (size d)
  | JStr s => mret (String.length s)
  | JNull | JBool _ | JNum _ => raise (TypeError "object has no len()")
  end.

(** [v[0]].  A dict parsed from JSON has string keys only, so the integer
    key 0 is never present; a non-empty string yields its first
    character. *)
Definition getitem_0 (v : json) : M json :=
  match v with
  | JArr items =>
      match items !! 0%nat with
      | Some x => mret x
      | None => raise (IndexError "list index out of range")
      end
  | JObj _ => raise (KeyError "0")
  | JStr (String c _) => mret (JStr (String c EmptyString))
  | JStr EmptyString => raise (IndexError "string index out of range")
  | JNull | JBool _ | JNum _ => raise (TypeError "object is not subscriptable")
  end.

(** *** [json.dumps] on the argument dictionary *)

(** The Python values [resolve_object] serialises: strings and dicts of
    them.  [json.dumps] writes a dict in insertion order, so these dicts
    are association lists. *)
Inductive payload : Type :=
| PStr (s : string)
| PDict (items : list (string * payload)).

Module Json.

Definition chr (n : N) : string := String (ascii_of_N n) EmptyString.

Definition quote_mark : string := chr 34.
Definition backslash : string := chr 92.

Definition hex_digit (n : N) : string :=
  if (n <? 10)%N then chr (48 + n) else chr (87 + n).

(** One character of a string under [ensure_ascii=True]: the quote and
    the backslash get a backslash, backspace, form feed, newline, carriage
    return and tab have their letter, the printable ASCII range
    U+0020..U+007E stands for itself, and any other code point becomes a
    four-digit lower-case hexadecimal escape. *)
Definition escape_char (c : ascii) : string :=
  let n := N_of_ascii c in
  if (n =? 34)%N then backslash ++ quote_mark
  else if (n =? 92)%N then backslash ++ backslash
  else if (n =? 8)%N then backslash ++ "b"
  else if (n =? 12)%N then backslash ++ "f"
  else if (n =? 10)%N then backslash ++ "n"
  else if (n =? 13)%N then backslash ++ "r"
  else if (n =? 9)%N then backslash ++ "t"
  else if ((32 <=? n) && (n <=? 126))%N then String c EmptyString
  else backslash ++ "u00" ++ hex_digit (n / 16) ++ hex_digit (n mod 16).

Fixpoint escape (s : string) : string :=
  match s with
  | EmptyString => EmptyString
  | String c s' => escape_char c ++ escape s'
  end.

Definition encode_str (s : string) : string :=
  quote_mark ++ escape s ++ quote_mark.

(** [sep.join(parts)]. *)
Fixpoint join (sep : string) (parts : list string) : string :=
  match parts with
  | [] => EmptyString
  | [p] => p
  | p :: rest => p ++ sep ++ join sep rest
  end.

(** [json.dumps(v)] with its default separators. *)
Fixpoint dumps (v : payload) : string :=
  match v with
  | PStr s => encode_str s
  | PDict items =>
      "{" ++ join ", " (map (λ '(k, x), encode_str k ++ ": " ++ dumps x) items) ++ "}"
  end.

End Json.

(** *** [urllib.parse.urlencode] *)

(** [urlencode(query)] for a [query] that is a [str].  The library function
    expects a mapping or a sequence of pairs: an argument without [items]
    is accepted only if it is empty or its first element is a tuple.  The
    first element of a non-empty string is a string, so the call raises
    [TypeError]; the empty string has no element and encodes to the empty
    string.  ([json.dumps] never returns the empty string.) *)
Definition urlencode_message : string :=
  "not a valid non-string sequence or mapping object".

Definition urlencode (query : string) : M string :=
  match query with
  | EmptyString => mret EmptyString
  | String _ _ => raise (TypeError urlencode_message)
  end.

(** ** The module's two networked functions *)

(** A fresh [requests.session()]: of its default headers the module reads
    only [User-Agent]. *)
Record Session : Type := mkSession {
  headers : gmap string string
}.

(** [d[key]] on a dict with string keys. *)
Definition getitem {V} (d : gmap string V) (key : string) : M V :=
  match d !! key with
  | Some v => mret v
  | None => raise (KeyError key)
  end.

(** [response.raise_for_status()]: the [requests] library raises
    [HTTPError] for the client-error (4xx) and server-error (5xx) status
    codes and returns for every other one. *)
Definition raise_for_status (response : Response) : M unit :=
  if ((400 <=? status_code response) && (status_code response <? 600))%Z
  then raise (HTTPError response)
  else mret tt.

(** [response.json()]. *)
Definition response_json (response : Response) : M json :=
  match body_json response with
  | Some v => mret v
  | None => raise JSONDecodeError
  end.

Section MastUtils.

(** [astroquery.version.version]. *)
Variable version : string.

(** [conf.server], the configured base URL. *)
Variable conf_server : string.

(** The [User-Agent] that [requests] puts in a new session. *)
Variable default_user_agent : string.

(** The network behind [requests.get]: for each call either the message
    of the exception the transport raises itself (connection failure,
    timeout, ...) or the response received. *)
Variable network : Request → string + Response.

(** [astropy.coordinates.SkyCoord] and its constructor
    [SkyCoord(ra, dec, unit=...)], which returns the coordinate or raises
    with some message. *)
Variable SkyCoord : Type.
Variable coord_SkyCoord : json → json → string → string + SkyCoord.

Definition requests_session : Session :=
  {| headers := {[ "User-Agent" := default_user_agent ]} |}.

(** [requests.get(url, params=params, headers=headers)]: one round trip,
    recorded in the log. *)
Definition requests_get (url params : string) (hdrs : list (string * string))
  : M Response :=
  λ log,
    let request := mkRequest url params hdrs in
    (match network request with
     | inl msg => inl (RequestException msg)
     | inr response => inr response
     end, (log ++ [request])%list).

Definition new_SkyCoord (ra dec : json) (unit : string) : M SkyCoord :=
  match coord_SkyCoord ra dec unit with
  | inl msg => raise (AstropyError msg)
  | inr c => mret c
  end.

(** Lines 67-80.  The session is created only to read its default
    [User-Agent]; the request goes through [requests.get]. *)
Definition _simple_request (url params : string) : M Response :=
  let session := requests_session in
  user_agent ← getitem (headers session) "User-Agent";
  let headers :=
    [ ("User-Agent", "astroquery/" ++ version ++ " " ++ user_agent);
      ("Content-type", "application/x-www-form-urlencoded");
      ("Accept", "text/plain") ] in
  response ← requests_get url params headers;
  raise_for_status response;;
  mret response.

(** Lines 103-112 of [resolve_object]: what the function does with the
    response it has received. *)
Definition resolve_object_tail (objectname : string) (response : Response)
  : M SkyCoord :=
  result ← response_json response;
  candidates ← getitem_str result "resolvedCoordinate";
  n ← py_len candidates;
  if (n =? 0)%nat
  then raise (ResolverError
                ("Could not resolve " ++ objectname ++ " to a sky position."))
  else
    candidates ← getitem_str result "resolvedCoordinate";
    first ← getitem_0 candidates;
    ra ← getitem_str first "ra";
    candidates ← getitem_str result "resolvedCoordinate";
    first ← getitem_0 candidates;
    dec ← getitem_str first "decl";
    coordinates ← new_SkyCoord ra dec "deg";
    mret coordinates.

(** Lines 83-112.  Line 100 passes the string made by [json.dumps] to
    [parse.urlencode]. *)
Definition resolve_object (objectname : string) : M SkyCoord :=
  let request_args :=
    PDict [ ("service", PStr "Mast.Name.Lookup");
            ("params", PDict [ ("input", PStr objectname);
                               ("format", PStr "json") ]) ] in
  encoded ← urlencode (Json.dumps request_args);
  let request_string := "request=" ++ encoded in
  response ← _simple_request (conf_server ++ "/api/v0/invoke") request_string;
  resolve_object_tail objectname response.

End MastUtils.

(** ** Concrete runs

    A configuration, an accepting stand-in for the [SkyCoord] constructor
    and a few canned responses, for evaluating the functions. *)

Module Scenario.

Record Coord : Type := mkCoord {
  coord_ra : json;
  coord_dec : json;
  coord_unit : string
}.

Definition accept_coord (ra dec : json) (unit : string) : string + Coord :=
  inr (mkCoord ra dec unit).

Definition version : string := "0.3.9".
Definition server : string := "https://mast.stsci.edu".
Definition user_agent : string := "python-requests/2.18.4".

(** A transport that answers every request with [response]. *)
Definition always (response : Response) : Request → string + Response :=
  λ _, inr response.

Definition candidate (ra dec : Q) : json :=
  JObj {[ "ra" := JNum ra; "decl" := JNum dec ]}.

(** HTTP 200 with two candidates, the Crab Nebula first. *)
Definition two_candidates : Response :=
  mkResponse 200
    (Some (JObj {[ "resolvedCoordinate" :=
                     JArr [ candidate (Qmake 83633 1000) (Qmake 220145 10000);
                            candidate (Qmake 10 1) (Qmake 20 1) ] ]})).

(** HTTP 200 with no candidate. *)
Definition no_candidate : Response :=
  mkResponse 200 (Some (JObj {[ "resolvedCoordinate" := JArr [] ]})).

(** HTTP 200 with one candidate that has no [ra]. *)
Definition candidate_without_ra : Response :=
  mkResponse 200
    (Some (JObj {[ "resolvedCoordinate" :=
                     JArr [ JObj {[ "decl" := JNum (Qmake 220145 10000) ]} ] ]})).

(** HTTP 404. *)
Definition not_found : Response := mkResponse 404 None.

Definition simple_request (net : Request → string + Response) :=
  _simple_request version user_agent net.

Definition resolve (net : Request → string + Response) :=
  resolve_object version server user_agent net Coord accept_coord.

Definition resolve_tail := resolve_object_tail Coord accept_coord.

End Scenario.

(** A header's value by name; HTTP header names are compared without
    regard to case. *)
Fixpoint header_value (name : string) (hdrs : list (string * string))
  : option string :=
  match hdrs with
  | [] => None
  | (k, v) :: rest =>
      if String.eqb (PyStr.lower k) (PyStr.lower name) then Some v
      else header_value name rest
  end.

(** The headers dictionary that [_simple_request] builds. *)
Definition sent_headers (version default_user_agent : string)
  : list (string * string) :=
  [ ("User-Agent", "astroquery/" ++ version ++ " " ++ default_user_agent);
    ("Content-type", "application/x-www-form-urlencoded");
    ("Accept", "text/plain") ].

(** [status] is a client-error or server-error code. *)
Definition error_status (status : Z) : bool :=
  ((400 <=? status) && (status <? 600))%Z.

(** [c] is one of the ASCII letters A-Z, a-z. *)
Definition is_letter (c : ascii) : bool :=
  let n := PyStr.code c in
  ((65 <=? n) && (n <=? 90) || (97 <=? n) && (n <=? 122))%N.

(** [s] consists of ASCII letters only. *)
Fixpoint all_letters (s : string) : bool :=
  match s with
  | EmptyString => true
  | String c s' => is_letter c && all_letters s'
  end.

(** The first components that occur in the dictionary literal of
    [_parse_type]. *)
Definition display_kinds : list string :=
  [ "string"; "float"; "integer"; "boolean"; "byte" ].

(** The key of the candidate list in the service's answer. *)
Definition candidates_key : string := "resolvedCoordinate".

(** * Properties *)

(** ** Strings *)

Module PyStrFacts.
Import PyStr.

Ltac by_cases_on_char c :=
  destruct c as [[] [] [] [] [] [] [] []]; vm_compute; reflexivity.

(** Lower-casing a code point twice is lower-casing it once. *)
Lemma lower_char_idem (c : ascii) : lower_char (lower_char c) = lower_char c.
Proof. by_cases_on_char c. Qed.

Lemma lower_idem (s : string) : lower (lower s) = lower s.
Proof.
  induction s as [|c s IH]; simpl; [reflexivity|].
  rewrite lower_char_idem, IH. reflexivity.
Qed.

(** On an ASCII code point, upper-casing does not change the lower case. *)
Lemma lower_upper_char (c : ascii) :
  (code c <? 128)%N = true → lower_char (upper_char c) = lower_char c.
Proof. intros _. by_cases_on_char c. Qed.

Lemma lower_upper (s : string) :
  is_ascii s = true → lower (upper s) = lower s.
Proof.
  induction s as [|c s IH]; simpl; [reflexivity|].
  intros [Hc Hs]%andb_prop.
  rewrite lower_upper_char, IH by assumption. reflexivity.
Qed.

End PyStrFacts.

(** ** [_parse_type] *)

(** Split a hypothesis [x ∈ [a; b; ...]] into one goal per element. *)
Ltac cases_of_elem H :=
  repeat (apply elem_of_cons in H as [H|H]; [simplify_eq|]);
  try (apply elem_of_nil in H; destruct H).

Lemma type_items_NoDup : NoDup type_items.*1.
Proof. apply (bool_decide_unpack _). vm_compute. exact I. Qed.

(** A key of the dictionary literal is found with its value. *)
Lemma type_table_lookup (key : string) (t : triplet) :
  (key, t) ∈ type_items → type_table !! key = Some t.
Proof. apply elem_of_list_to_map_1, type_items_NoDup. Qed.

(** Any other key is absent. *)
Lemma type_table_lookup_None (key : string) :
  key ∉ recognized_tokens → type_table !! key = None.
Proof. apply not_elem_of_list_to_map_1. Qed.

Lemma recognized_tokens_ascii (token : string) :
  token ∈ recognized_tokens → PyStr.is_ascii token = true.
Proof. intros H. cbn in H. cases_of_elem H; reflexivity. Qed.

Lemma recognized_tokens_lower (token : string) :
  token ∈ recognized_tokens → PyStr.lower token = token.
Proof. intros H. cbn in H. cases_of_elem H; reflexivity. Qed.

(** The tokens of the specification's table are the keys of the dictionary
    literal. *)
Lemma spec_entry_recognized (token : string) :
  token ∈ recognized_tokens ↔ ∃ t, spec_entry token t.
Proof.
  unfold spec_entry. split.
  - intros H. cbn in H.
    cases_of_elem H; eexists; apply list_elem_of_In; cbn; eauto 20.
  - intros [t H]. cbn in H.
    cases_of_elem H; apply list_elem_of_In; cbn; tauto.
Qed.

(** C5.  Every token of the table of section 4.1 is mapped to the triplet
    of its row: char, string, datetime and date to ('string', str, the
    empty string); double, float and decimal to ('float', np.float64, nan);
    int, short, long and number to ('integer', np.int64, -999); boolean and
    binary to ('boolean', bool, None); unsignedbyte to
    ('byte', np.ubyte, -999). *)
Theorem parse_type_table (token : string) (t : triplet) :
  spec_entry token t → _parse_type token = t.
Proof.
  unfold spec_entry. intros H. cbn in H.
  cases_of_elem H; vm_compute; reflexivity.
Qed.

Lemma parse_type_table_witness :
  spec_entry "short" (PyString "integer", PyType np_int64, PyInt (-999))
  ∧ _parse_type "short" = (PyString "integer", PyType np_int64, PyInt (-999)).
Proof.
  assert (H : spec_entry "short" (PyString "integer", PyType np_int64, PyInt (-999))).
  { apply list_elem_of_In. cbn. tauto. }
  split; [exact H | exact (parse_type_table _ _ H)].
Defined.

(** C6, as stated, fails: "Foo" is not a recognized token, and the fallback
    echoes the lower-cased "foo", not the token passed in. *)
Lemma parse_type_echo_counterexample :
  ("Foo" ∉ recognized_tokens)
  ∧ _parse_type "Foo" = (PyString "foo", PyString "foo", PyString "foo")
  ∧ _parse_type "Foo" ≠ (PyString "Foo", PyString "Foo", PyString "Foo").
Proof.
  split; [|split].
  - apply (bool_decide_unpack _). vm_compute. exact I.
  - vm_compute. reflexivity.
  - vm_compute. discriminate.
Qed.

(** C6, amended.  For every string whose lower-cased form is not a
    recognized token, the result is the echo triplet of the lower-cased
    string, the same string in all three positions.  [_parse_type] is a
    total function: there is no failure case. *)
Theorem parse_type_echo (S : string) :
  PyStr.lower S ∉ recognized_tokens →
  _parse_type S
  = (PyString (PyStr.lower S), PyString (PyStr.lower S), PyString (PyStr.lower S)).
Proof.
  intros H. unfold _parse_type, dict_get.
  rewrite (type_table_lookup_None _ H). reflexivity.
Qed.

Lemma parse_type_echo_witness :
  (PyStr.lower "Foo" ∉ recognized_tokens)
  ∧ _parse_type "Foo" = (PyString "foo", PyString "foo", PyString "foo").
Proof.
  assert (H : PyStr.lower "Foo" ∉ recognized_tokens).
  { apply (bool_decide_unpack _). vm_compute. exact I. }
  split; [exact H | exact (parse_type_echo "Foo" H)].
Defined.

(** C9.  For every string, recognized or not, [_parse_type] gives the same
    result on the string and on its lower-cased form. *)
Theorem parse_type_lower (s : string) :
  _parse_type s = _parse_type (PyStr.lower s).
Proof. unfold _parse_type. rewrite PyStrFacts.lower_idem. reflexivity. Qed.

(** C7.  For every recognized token, [_parse_type] gives the same triplet
    on the token and on its upper-cased form. *)
Theorem parse_type_upper (T : string) :
  T ∈ recognized_tokens → _parse_type (PyStr.upper T) = _parse_type T.
Proof.
  intros H. unfold _parse_type.
  rewrite PyStrFacts.lower_upper by (apply recognized_tokens_ascii, H).
  reflexivity.
Qed.

Lemma parse_type_upper_witness :
  "short" ∈ recognized_tokens
  ∧ _parse_type "SHORT" = (PyString "integer", PyType np_int64, PyInt (-999)).
Proof.
  assert (H : "short" ∈ recognized_tokens).
  { apply list_elem_of_In. cbn. tauto. }
  split; [exact H|].
  exact (eq_trans (parse_type_upper "short" H) eq_refl).
Defined.


(** ** [_simple_request] *)

Section SimpleRequestFacts.

Variable version : string.
Variable default_user_agent : string.
Variable network : Request → string + Response.

(** One run of [_simple_request], spelled out: exactly one request is
    appended to the log, and the outcome is decided by the transport and
    the status code. *)
Lemma simple_request_run (url params : string) (log : list Request) :
  _simple_request version default_user_agent network url params log
  = (match network (mkRequest url params (sent_headers version default_user_agent)) with
     | inl msg => inl (RequestException msg)
     | inr response =>
         if error_status (status_code response)
         then inl (HTTPError response) else inr response
     end,
     (log ++ [mkRequest url params (sent_headers version default_user_agent)])%list).
Proof.
  unfold _simple_request, requests_session, getitem; simpl.
  rewrite lookup_singleton_eq.
  unfold mbind, M_bind, mret, M_ret, requests_get, raise_for_status,
    raise, error_status, sent_headers.
  destruct (network _) as [msg|response]; [reflexivity|].
  destruct (_ && _); reflexivity.
Qed.

Lemma error_status_spec (status : Z) :
  error_status status = true ↔ (400 ≤ status < 600)%Z.
Proof. unfold error_status. rewrite andb_true_iff. lia. Qed.

(** The request fails with [HTTPError] exactly when a response came back
    with a 4xx or 5xx status code, and the error carries that
    response. *)
Lemma simple_request_HTTPError (url params : string) (log : list Request)
    (response : Response) :
  (_simple_request version default_user_agent network url params log).1
  = inl (HTTPError response)
  ↔ network (mkRequest url params (sent_headers version default_user_agent)) = inr response
    ∧ (400 ≤ status_code response < 600)%Z.
Proof.
  rewrite simple_request_run, <- error_status_spec. simpl.
  destruct (network _) as [msg|r].
  - split; [discriminate | intros [? _]; discriminate].
  - destruct (error_status (status_code r)) eqn:E.
    + split.
      * intros [= <-]. split; [reflexivity | exact E].
      * intros [[= ->] _]. reflexivity.
    + split; [discriminate|].
      intros [[= ->] E']. rewrite E in E'. discriminate.
Qed.

(** With any other status code the response itself is returned. *)
Lemma simple_request_returns (url params : string) (log : list Request)
    (response : Response) :
  network (mkRequest url params (sent_headers version default_user_agent)) = inr response →
  ¬ (400 ≤ status_code response < 600)%Z →
  (_simple_request version default_user_agent network url params log).1
  = inr response.
Proof.
  intros Hnet Hst. rewrite simple_request_run, Hnet. simpl.
  destruct (error_status (status_code response)) eqn:E; [|reflexivity].
  apply error_status_spec in E. contradiction.
Qed.

(** C8.  Whatever the url and the parameters, [_simple_request] issues
    one request, and with it one and the same headers dictionary: the
    content type application/x-www-form-urlencoded, the accepted type
    text/plain, and as user agent the text astroquery/, the library
    version, a blank and the user agent of the transport's own
    session. *)
Theorem simple_request_headers :
  ∃ headers : list (string * string),
    (∀ url params log,
       (_simple_request version default_user_agent network url params log).2
       = (log ++ [mkRequest url params headers])%list)
    ∧ headers = [ ("User-Agent",
                   "astroquery/" ++ version ++ " " ++ default_user_agent);
                  ("Content-type", "application/x-www-form-urlencoded");
                  ("Accept", "text/plain") ]
    ∧ header_value "Content-Type" headers
      = Some "application/x-www-form-urlencoded"
    ∧ header_value "Accept" headers = Some "text/plain"
    ∧ header_value "User-Agent" headers
      = Some ("astroquery/" ++ version ++ " " ++ default_user_agent).
Proof.
  exists (sent_headers version default_user_agent). split; [|repeat split].
  intros url params log. rewrite simple_request_run. reflexivity.
Qed.

End SimpleRequestFacts.

(** ** [resolve_object] *)

Section ResolveObjectFacts.

Variable version : string.
Variable conf_server : string.
Variable default_user_agent : string.
Variable network : Request → string + Response.
Variable SkyCoord : Type.
Variable coord_SkyCoord : json → json → string → string + SkyCoord.

(** The serialised argument dictionary opens with a brace, so it is never
    the empty string. *)
Lemma dumps_dict_nonempty (items : list (string * payload)) :
  ∃ rest, Json.dumps (PDict items) = String "{" rest.
Proof. eexists. reflexivity. Qed.

Lemma append_assoc (s1 s2 s3 : string) :
  (s1 ++ s2) ++ s3 = s1 ++ s2 ++ s3.
Proof.
  induction s1 as [|c s1 IH]; [reflexivity|].
  change (String c ((s1 ++ s2) ++ s3) = String c (s1 ++ s2 ++ s3)).
  rewrite IH. reflexivity.
Qed.

(** The document that [json.dumps] produces for the argument dictionary of
    [resolve_object]. *)
Lemma dumps_request_args (objectname : string) :
  let q := Json.encode_str in
  Json.dumps
    (PDict [ ("service", PStr "Mast.Name.Lookup");
             ("params", PDict [ ("input", PStr objectname);
                                ("format", PStr "json") ]) ])
  = "{" ++ q "service" ++ ": " ++ q "Mast.Name.Lookup" ++ ", "
        ++ q "params" ++ ": " ++ "{" ++ q "input" ++ ": " ++ q objectname
        ++ ", " ++ q "format" ++ ": " ++ q "json" ++ "}" ++ "}".
Proof.
  intros q. unfold q. cbn [Json.dumps map Json.join].
  rewrite !append_assoc. reflexivity.
Qed.

(** [resolve_object] raises the [TypeError] of [urlencode] for every
    object name and every transport, and leaves the log as it was: no
    request is issued. *)
Lemma resolve_object_raises (objectname : string) (log : list Request) :
  resolve_object version conf_server default_user_agent network
    SkyCoord coord_SkyCoord objectname log
  = (inl (TypeError urlencode_message), log).
Proof. reflexivity. Qed.

(** *** The code after the request (lines 103-112) *)

Ltac run_tail :=
  repeat (unfold resolve_object_tail, response_json, new_SkyCoord,
            getitem_str, py_len, getitem_0, mbind, M_bind, mret, M_ret,
            raise; simpl).

(** With at least one candidate, the coordinate is built from the [ra]
    and [decl] of the first one, in degrees; later candidates are not
    looked at. *)
Lemma tail_first_candidate (objectname : string) (status : Z)
    (d c : gmap string json) (rest : list json) (ra dec : json)
    (log : list Request) :
  d !! "resolvedCoordinate" = Some (JArr (JObj c :: rest)) →
  c !! "ra" = Some ra →
  c !! "decl" = Some dec →
  resolve_object_tail SkyCoord coord_SkyCoord objectname
    (mkResponse status (Some (JObj d))) log
  = new_SkyCoord SkyCoord coord_SkyCoord ra dec "deg" log.
Proof.
  intros Hd Hra Hdec. run_tail. rewrite Hd. run_tail.
  rewrite Hra, Hdec. run_tail.
  destruct (coord_SkyCoord ra dec "deg"); reflexivity.
Qed.

(** With an empty candidate list, [ResolverError] is raised and its
    message names the object. *)
Lemma tail_no_candidate (objectname : string) (status : Z)
    (d : gmap string json) (log : list Request) :
  d !! "resolvedCoordinate" = Some (JArr []) →
  resolve_object_tail SkyCoord coord_SkyCoord objectname
    (mkResponse status (Some (JObj d))) log
  = (inl (ResolverError
            ("Could not resolve " ++ objectname ++ " to a sky position.")),
     log).
Proof.
  intros Hd. run_tail. rewrite Hd. reflexivity.
Qed.

(** A first candidate without [ra] gives a [KeyError]. *)
Lemma tail_missing_ra (objectname : string) (status : Z)
    (d c : gmap string json) (rest : list json) (log : list Request) :
  d !! "resolvedCoordinate" = Some (JArr (JObj c :: rest)) →
  c !! "ra" = None →
  resolve_object_tail SkyCoord coord_SkyCoord objectname
    (mkResponse status (Some (JObj d))) log
  = (inl (KeyError "ra"), log).
Proof.
  intros Hd Hra. run_tail. rewrite Hd. run_tail. rewrite Hra. reflexivity.
Qed.

(** So does a first candidate with [ra] but without [decl]. *)
Lemma tail_missing_decl (objectname : string) (status : Z)
    (d c : gmap string json) (rest : list json) (ra : json)
    (log : list Request) :
  d !! "resolvedCoordinate" = Some (JArr (JObj c :: rest)) →
  c !! "ra" = Some ra →
  c !! "decl" = None →
  resolve_object_tail SkyCoord coord_SkyCoord objectname
    (mkResponse status (Some (JObj d))) log
  = (inl (KeyError "decl"), log).
Proof.
  intros Hd Hra Hdec. run_tail. rewrite Hd. run_tail.
  rewrite Hra, Hdec. reflexivity.
Qed.

(** The tail issues no request of its own. *)
Lemma tail_log (objectname : string) (response : Response)
    (log : list Request) :
  (resolve_object_tail SkyCoord coord_SkyCoord objectname response log).2
  = log.
Proof.
  run_tail. repeat (case_match; simplify_eq/=; try reflexivity).
Qed.

(** [ResolverError] comes from nowhere else: when the tail raises it,
    the response has a [resolvedCoordinate] of length 0. *)
Lemma tail_ResolverError_inv (objectname : string) (response : Response)
    (log : list Request) (msg : string) :
  (resolve_object_tail SkyCoord coord_SkyCoord objectname response log).1
  = inl (ResolverError msg) →
  ∃ result candidates,
    body_json response = Some result
    ∧ (getitem_str result "resolvedCoordinate" log).1 = inr candidates
    ∧ (py_len candidates log).1 = inr 0%nat.
Proof.
  destruct response as [status [result|]]; [|run_tail; discriminate].
  destruct result as [| | | |items|d]; try (run_tail; discriminate).
  run_tail.
  destruct (d !! "resolvedCoordinate") as [candidates|] eqn:Hd;
    run_tail; [|discriminate].
  intros H. exists (JObj d), candidates.
  split; [reflexivity|]. split; [run_tail; rewrite Hd; reflexivity|].
  revert H.
  destruct candidates as [| | |s|items|d']; run_tail; try discriminate.
  all: destruct (_ =? 0)%nat eqn:E;
    [ intros _; apply Nat.eqb_eq in E; rewrite E; reflexivity
    | repeat (case_match; simplify_eq/=); discriminate ].
Qed.

End ResolveObjectFacts.

(** ** [resolve_object] on concrete runs *)

(** C1.  The transport answers HTTP 200 with two candidates.  The code that
    handles the response would build the coordinate from the first
    candidate, but [resolve_object] does not get that far: [urlencode]
    raises [TypeError], so no coordinate is returned. *)
Theorem resolve_two_candidates :
  Scenario.resolve (Scenario.always Scenario.two_candidates) "Crab Nebula" []
  = (inl (TypeError urlencode_message), [])
  ∧ Scenario.resolve_tail "Crab Nebula" Scenario.two_candidates []
    = (inr (Scenario.mkCoord (JNum (Qmake 83633 1000))
              (JNum (Qmake 220145 10000)) "deg"), []).
Proof. split; reflexivity. Qed.

(** C2.  The transport answers HTTP 200 with no candidate.  The code that
    handles the response would raise [ResolverError] with the object name in
    its message, but [resolve_object] raises the [TypeError] of [urlencode]
    instead. *)
Theorem resolve_no_candidate :
  Scenario.resolve (Scenario.always Scenario.no_candidate)
    "nonexistent-object-xyz" []
  = (inl (TypeError urlencode_message), [])
  ∧ Scenario.resolve_tail "nonexistent-object-xyz" Scenario.no_candidate []
    = (inl (ResolverError
              "Could not resolve nonexistent-object-xyz to a sky position."),
       []).
Proof. split; reflexivity. Qed.

(** C3.  For every configuration, transport and object name,
    [resolve_object] ends in the [TypeError] of [urlencode] and has sent no
    request: the serialised dictionary is never URL-encoded and nothing is
    submitted to the server. *)
Theorem resolve_sends_nothing
    (version conf_server default_user_agent : string)
    (network : Request → string + Response)
    (SkyCoord : Type) (coord_SkyCoord : json → json → string → string + SkyCoord)
    (objectname : string) :
  outcome (resolve_object version conf_server default_user_agent network
             SkyCoord coord_SkyCoord objectname)
  = inl (TypeError urlencode_message)
  ∧ requests_sent (resolve_object version conf_server default_user_agent
                     network SkyCoord coord_SkyCoord objectname)
    = [].
Proof. split; reflexivity. Qed.

(** C4.  The transport answers HTTP 404.  [_simple_request] raises
    [HTTPError] carrying that response, but [resolve_object] never calls
    it: the failure that leaves [resolve_object] is the [TypeError] of
    [urlencode], not the HTTP-status error. *)
Theorem resolve_not_found :
  outcome (Scenario.simple_request (Scenario.always Scenario.not_found)
             "https://mast.stsci.edu/api/v0/invoke" "request=x")
  = inl (HTTPError Scenario.not_found)
  ∧ outcome (Scenario.resolve (Scenario.always Scenario.not_found) "M31")
    = inl (TypeError urlencode_message)
  ∧ requests_sent (Scenario.resolve (Scenario.always Scenario.not_found) "M31")
    = [].
Proof. repeat split; reflexivity. Qed.

(** C10.  With an empty candidate list and with a first candidate that has
    no [ra], [resolve_object] raises one and the same [TypeError]: no
    [ResolverError] in the first case, no key-lookup error in the second.
    The code that handles the response would tell the two apart. *)
Theorem resolve_error_kinds :
  outcome (Scenario.resolve (Scenario.always Scenario.no_candidate) "M31")
  = inl (TypeError urlencode_message)
  ∧ outcome (Scenario.resolve
               (Scenario.always Scenario.candidate_without_ra) "M31")
    = inl (TypeError urlencode_message)
  ∧ outcome (Scenario.resolve_tail "M31" Scenario.no_candidate)
    = inl (ResolverError "Could not resolve M31 to a sky position.")
  ∧ outcome (Scenario.resolve_tail "M31" Scenario.candidate_without_ra)
    = inl (KeyError "ra").
Proof. repeat split; reflexivity. Qed.


(** * Further properties *)

(** ** [_parse_type]: telling a table entry from the fallback *)

(** X1.  The second component of the result is a type object exactly when
    the lower-cased token is a key of the dictionary; on the fallback it is
    a string.  A caller can thus tell a recognized type from an unknown
    one. *)
Theorem parse_type_known_iff (S : string) :
  (∃ t, (_parse_type S).1.2 = PyType t) ↔ PyStr.lower S ∈ recognized_tokens.
Proof.
  unfold _parse_type, dict_get. cbv zeta.
  generalize (PyStr.lower S). intros k. split.
  - intros [t Ht].
    destruct (decide (k ∈ recognized_tokens)) as [Hin|Hout]; [exact Hin|].
    rewrite (type_table_lookup_None _ Hout) in Ht. discriminate.
  - intros H. cbn in H. cases_of_elem H; eexists; vm_compute; reflexivity.
Qed.

Lemma is_letter_lower_char (c : ascii) :
  is_letter (PyStr.lower_char c) = is_letter c.
Proof. destruct c as [[] [] [] [] [] [] [] []]; vm_compute; reflexivity. Qed.

Lemma all_letters_lower (s : string) :
  all_letters (PyStr.lower s) = all_letters s.
Proof.
  induction s as [|c s IH]; simpl; [reflexivity|].
  rewrite is_letter_lower_char, IH. reflexivity.
Qed.

Lemma recognized_tokens_letters (token : string) :
  token ∈ recognized_tokens → all_letters token = true.
Proof. intros H. cbn in H. cases_of_elem H; reflexivity. Qed.

(** X2.  The input is not cleaned before the lookup: a string with any
    character that is not an ASCII letter (a blank before or after the
    token, a digit, punctuation) is never found in the table and comes
    back as the echo of its lower-cased form. *)
Theorem parse_type_non_letter (S : string) :
  all_letters S = false →
  _parse_type S
  = (PyString (PyStr.lower S), PyString (PyStr.lower S), PyString (PyStr.lower S)).
Proof.
  intros H. unfold _parse_type, dict_get.
  rewrite type_table_lookup_None; [reflexivity|].
  intros Hin. apply recognized_tokens_letters in Hin.
  rewrite all_letters_lower in Hin. congruence.
Qed.

Lemma parse_type_non_letter_witness :
  all_letters "Int " = false
  ∧ _parse_type "Int " = (PyString "int ", PyString "int ", PyString "int ").
Proof.
  split; [reflexivity|].
  exact (parse_type_non_letter "Int " eq_refl).
Defined.

(** X3.  The first component of the result is always a string.  For a
    recognized token it is one of string, float, integer, boolean, byte;
    otherwise it is the lower-cased input. *)
Theorem parse_type_display_kind (S : string) :
  ∃ kind : string,
    (_parse_type S).1.1 = PyString kind
    ∧ ((PyStr.lower S ∈ recognized_tokens ∧ kind ∈ display_kinds)
       ∨ ((PyStr.lower S ∉ recognized_tokens) ∧ kind = PyStr.lower S)).
Proof.
  unfold _parse_type, dict_get. cbv zeta.
  generalize (PyStr.lower S). intros k.
  destruct (decide (k ∈ recognized_tokens)) as [Hin|Hout].
  - pose proof Hin as H. cbn in H.
    cases_of_elem H; eexists; (split; [vm_compute; reflexivity|]);
      left; (split; [exact Hin|]); apply list_elem_of_In; cbn; tauto.
  - exists k. rewrite (type_table_lookup_None _ Hout).
    split; [reflexivity|]. right. split; [exact Hout | reflexivity].
Qed.

(** ** [_simple_request]: the two ways to fail, the one way to succeed *)

Section SimpleRequestOutcome.

Variable version : string.
Variable default_user_agent : string.
Variable network : Request → string + Response.

(** X4.  [_simple_request] fails in two ways only: with the exception of
    the transport, handed on as it is, or with [HTTPError] for a response
    whose status code is between 400 and 599, the error carrying that
    response.  In particular the lookup of the session's user agent never
    fails. *)
Theorem simple_request_failure (url params : string) (log : list Request)
    (e : exn) :
  (_simple_request version default_user_agent network url params log).1 = inl e
  ↔ (∃ msg, network (mkRequest url params
                       (sent_headers version default_user_agent)) = inl msg
            ∧ e = RequestException msg)
    ∨ (∃ response, network (mkRequest url params
                              (sent_headers version default_user_agent))
                   = inr response
                   ∧ (400 ≤ status_code response < 600)%Z
                   ∧ e = HTTPError response).
Proof.
  rewrite simple_request_run. simpl.
  destruct (network _) as [msg|r].
  - split.
    + intros [= <-]. left. exists msg. split; reflexivity.
    + intros [(m & [= ->] & ->) | (r & Hr & _)]; [reflexivity | discriminate].
  - destruct (error_status (status_code r)) eqn:E.
    + split.
      * intros [= <-]. right. exists r.
        split; [reflexivity|]. split; [|reflexivity].
        apply error_status_spec, E.
      * intros [(m & Hm & _) | (r' & [= ->] & _ & ->)];
          [discriminate | reflexivity].
    + split; [discriminate|].
      intros [(m & Hm & _) | (r' & [= ->] & Hst & _)]; [discriminate|].
      apply error_status_spec in Hst. congruence.
Qed.

(** X5.  [_simple_request] returns a response exactly when the transport
    delivered it and its status code is below 400 or at least 600: the
    informational and redirection codes are handed to the caller like the
    2xx ones. *)
Theorem simple_request_success (url params : string) (log : list Request)
    (response : Response) :
  (_simple_request version default_user_agent network url params log).1
  = inr response
  ↔ network (mkRequest url params (sent_headers version default_user_agent))
    = inr response
    ∧ (status_code response < 400 ∨ 600 ≤ status_code response)%Z.
Proof.
  rewrite simple_request_run. simpl.
  destruct (network _) as [msg|r].
  - split; [discriminate | intros [? _]; discriminate].
  - destruct (error_status (status_code r)) eqn:E.
    + apply error_status_spec in E. split; [discriminate|].
      intros [[= ->] ?]. lia.
    + split.
      * intros [= <-]. split; [reflexivity|].
        destruct (decide (400 ≤ status_code r < 600)%Z) as [Hst|Hst]; [|lia].
        apply error_status_spec in Hst. congruence.
      * intros [[= ->] _]. reflexivity.
Qed.

End SimpleRequestOutcome.

(** ** [resolve_object]: the handling of the response (lines 103-112) *)

Ltac run_response :=
  unfold candidates_key in *;
  repeat (unfold resolve_object_tail, response_json, new_SkyCoord,
            getitem_str, py_len, getitem_0, mbind, M_bind, mret, M_ret,
            raise; simpl).

Section ResponseHandling.

Variable SkyCoord : Type.
Variable coord_SkyCoord : json → json → string → string + SkyCoord.

(** X6.  When the answer is a JSON object whose candidate list starts with
    an object that has [ra] and [decl], the code calls the [SkyCoord]
    constructor on these two values with the unit deg, and the result of
    the code is the result of that call: the coordinate, or the
    constructor's exception.  The candidates after the first are not
    read. *)
Theorem response_first_candidate (objectname : string) (status : Z)
    (d c : gmap string json) (rest : list json) (ra dec : json)
    (log : list Request) :
  d !! candidates_key = Some (JArr (JObj c :: rest)) →
  c !! "ra" = Some ra →
  c !! "decl" = Some dec →
  resolve_object_tail SkyCoord coord_SkyCoord objectname
    (mkResponse status (Some (JObj d))) log
  = (match coord_SkyCoord ra dec "deg" with
     | inl msg => inl (AstropyError msg)
     | inr coordinates => inr coordinates
     end, log).
Proof.
  intros Hd Hra Hdec. run_response. rewrite Hd. run_response.
  rewrite Hra, Hdec. run_response.
  destruct (coord_SkyCoord ra dec "deg"); reflexivity.
Qed.

(** X7.  The code raises [ResolverError] exactly when the answer is a JSON
    object whose [resolvedCoordinate] has length 0, be it an empty list, an
    empty object or an empty string; the message is then the fixed
    sentence around the object name. *)
Theorem response_ResolverError_iff (objectname : string)
    (response : Response) (log : list Request) (msg : string) :
  (resolve_object_tail SkyCoord coord_SkyCoord objectname response log).1
  = inl (ResolverError msg)
  ↔ msg = "Could not resolve " ++ objectname ++ " to a sky position."
    ∧ ∃ d v, body_json response = Some (JObj d)
             ∧ d !! candidates_key = Some v
             ∧ (v = JArr [] ∨ v = JObj ∅ ∨ v = JStr EmptyString).
Proof.
  split.
  - destruct response as [status [result|]]; [|run_response; discriminate].
    destruct result as [| | | |items|d]; try (run_response; discriminate).
    run_response.
    destruct (d !! "resolvedCoordinate") as [v|] eqn:Hd;
      run_response; [|discriminate].
    destruct v as [| | |s|items|d']; run_response; try discriminate.
    + destruct s as [|ch s]; simpl.
      * intros [= <-]. split; [reflexivity|]. exists d, (JStr EmptyString).
        repeat split; [exact Hd | auto].
      * repeat (case_match; simplify_eq/=); discriminate.
    + destruct items as [|x items]; simpl.
      * intros [= <-]. split; [reflexivity|]. exists d, (JArr []).
        repeat split; [exact Hd | auto].
      * repeat (case_match; simplify_eq/=); discriminate.
    + destruct (size d' =? 0)%nat eqn:E.
      * intros [= <-]. split; [reflexivity|].
        apply Nat.eqb_eq, map_size_empty_iff in E. subst d'.
        exists d, (JObj ∅). repeat split; [exact Hd | auto].
      * repeat (case_match; simplify_eq/=); discriminate.
  - intros [-> (d & v & Hbody & Hd & Hv)].
    destruct response as [status body]. simpl in Hbody. subst body.
    run_response. rewrite Hd.
    destruct Hv as [-> | [-> | ->]]; run_response;
      rewrite ?map_size_empty; reflexivity.
Qed.

(** X8.  An answer that is a JSON object without the key
    [resolvedCoordinate] makes the code fail with a [KeyError] for that
    key: neither [ResolverError] nor a coordinate. *)
Theorem response_without_candidates (objectname : string) (status : Z)
    (d : gmap string json) (log : list Request) :
  d !! candidates_key = None →
  resolve_object_tail SkyCoord coord_SkyCoord objectname
    (mkResponse status (Some (JObj d))) log
  = (inl (KeyError "resolvedCoordinate"), log).
Proof. intros Hd. run_response. rewrite Hd. reflexivity. Qed.

(** X9.  When the first candidate is an object that lacks [ra] or [decl],
    the code fails with a [KeyError] for the missing field, [ra] being
    looked up first; the [SkyCoord] constructor is not called. *)
Theorem response_missing_field (objectname : string) (status : Z)
    (d c : gmap string json) (rest : list json) (log : list Request) :
  d !! candidates_key = Some (JArr (JObj c :: rest)) →
  c !! "ra" = None ∨ c !! "decl" = None →
  resolve_object_tail SkyCoord coord_SkyCoord objectname
    (mkResponse status (Some (JObj d))) log
  = (inl (KeyError match c !! "ra" with
                    | Some _ => "decl"
                    | None => "ra"
                    end), log).
Proof.
  intros Hd Hmiss. run_response. rewrite Hd. run_response.
  destruct (c !! "ra") as [ra|] eqn:Hra; run_response; [|reflexivity].
  destruct Hmiss as [Hmiss|Hmiss]; [discriminate|].
  rewrite Hmiss. reflexivity.
Qed.

End ResponseHandling.

Lemma response_first_candidate_witness :
  Scenario.resolve_tail "Crab Nebula" Scenario.two_candidates []
  = (inr (Scenario.mkCoord (JNum (Qmake 83633 1000))
            (JNum (Qmake 220145 10000)) "deg"), []).
Proof.
  exact (response_first_candidate Scenario.Coord Scenario.accept_coord
           "Crab Nebula" 200
           {[ "resolvedCoordinate" :=
                JArr [ Scenario.candidate (Qmake 83633 1000) (Qmake 220145 10000);
                       Scenario.candidate (Qmake 10 1) (Qmake 20 1) ] ]}
           {[ "ra" := JNum (Qmake 83633 1000);
              "decl" := JNum (Qmake 220145 10000) ]}
           [ Scenario.candidate (Qmake 10 1) (Qmake 20 1) ]
           (JNum (Qmake 83633 1000)) (JNum (Qmake 220145 10000)) []
           eq_refl eq_refl eq_refl).
Defined.

Lemma response_without_candidates_witness :
  Scenario.resolve_tail "M31"
    (mkResponse 200 (Some (JObj {[ "status" := JStr "COMPLETE" ]}))) []
  = (inl (KeyError "resolvedCoordinate"), []).
Proof.
  exact (response_without_candidates Scenario.Coord Scenario.accept_coord
           "M31" 200 {[ "status" := JStr "COMPLETE" ]} [] eq_refl).
Defined.

Lemma response_missing_field_witness :
  Scenario.resolve_tail "M31" Scenario.candidate_without_ra []
  = (inl (KeyError "ra"), []).
Proof.
  exact (response_missing_field Scenario.Coord Scenario.accept_coord
           "M31" 200
           {[ "resolvedCoordinate" :=
                JArr [ JObj {[ "decl" := JNum (Qmake 220145 10000) ]} ] ]}
           {[ "decl" := JNum (Qmake 220145 10000) ]} [] []
           eq_refl (or_introl eq_refl)).
Defined.
